(** * scripts/visualization.py: boxes, camera frustums and the driver loop

    A shallow embedding of the script.  Python floats are idealised as real
    numbers (no rounding, no NaN, no infinities); Python values read from
    JSON are an inductive type; exceptions are an error monad; the two
    third-party libraries (Open3D meshes and line sets, NumPy arrays) are
    modelled only as far as the script calls them. *)

From Stdlib Require Import Reals Lra List ZArith String Bool Lia RNsatz.
Import ListNotations.
Set Warnings "-register-all".
Open Scope string_scope.
Open Scope Z_scope.
Open Scope R_scope.

(** ** Python values, exceptions and the error monad *)

Module Py.

(** What [json.load] can return: None, bools, ints, floats, strings, lists
    and dicts.  A dict is kept as its items in insertion order (keys are
    unique in a Python dict). *)
Inductive pyval : Type :=
| PNone
| PBool (b : bool)
| PInt (z : Z)
| PFloat (x : R)
| PStr (s : string)
| PList (l : list pyval)
| PDict (d : list (string * pyval)).

(** The exception classes the script can meet; every one of them is a
    subclass of [Exception], so [except Exception] catches them all. *)
Inductive exn : Type :=
| KeyError (k : string)
| TypeError
| IndexError
| ValueError
| AttributeError
| RuntimeError.

Inductive result (A : Type) : Type :=
| Ok (a : A)
| Raise (e : exn).
Arguments Ok {A} a.
Arguments Raise {A} e.

Definition bind {A B : Type} (m : result A) (k : A -> result B) : result B :=
  match m with
  | Ok a => k a
  | Raise e => Raise e
  end.

Fixpoint mapM {A B : Type} (f : A -> result B) (l : list A) : result (list B) :=
  match l with
  | [] => Ok []
  | a :: l' =>
      bind (f a) (fun b => bind (mapM f l') (fun bs => Ok (b :: bs)))
  end.

Fixpoint lookup (k : string) (d : list (string * pyval)) : option pyval :=
  match d with
  | [] => None
  | (k', v) :: d' => if String.eqb k k' then Some v else lookup k d'
  end.

(** [obj[k]] for a string key [k]: a dict answers or raises [KeyError]; a
    list or a string refuses a string index and every other value is not
    subscriptable, both with [TypeError]. *)
Definition getitem (obj : pyval) (k : string) : result pyval :=
  match obj with
  | PDict d =>
      match lookup k d with
      | Some v => Ok v
      | None => Raise (KeyError k)
      end
  | _ => Raise TypeError
  end.

(** The number a value stands for where Python or a binding expects a float
    ([bool] is a subclass of [int]). *)
Definition as_real (v : pyval) : result R :=
  match v with
  | PInt z => Ok (IZR z)
  | PFloat x => Ok x
  | PBool b => Ok (if b then 1 else 0)
  | _ => Raise TypeError
  end.

Fixpoint chars (s : string) : list pyval :=
  match s with
  | EmptyString => []
  | String c s' => PStr (String c EmptyString) :: chars s'
  end.

(** [for e in v]: a list yields its elements, a string its characters, a
    dict its keys; nothing else is iterable. *)
Definition iterate (v : pyval) : result (list pyval) :=
  match v with
  | PList l => Ok l
  | PStr s => Ok (chars s)
  | PDict d => Ok (map (fun kv => PStr (fst kv)) d)
  | _ => Raise TypeError
  end.

(** The builtin [max(a, b)] on numbers: the first argument is kept unless
    the second is strictly greater. *)
Definition py_max (a b : R) : R := if Rlt_dec a b then b else a.

(** [l[i]] on a Python list of length [n]: a negative index counts from the
    end, anything outside [-n, n) raises [IndexError]. *)
Definition list_index {A : Type} (l : list A) (i : Z) : result A :=
  let n := Z.of_nat (List.length l) in
  let j := (if i <? 0 then i + n else i)%Z in
  if ((0 <=? j) && (j <? n))%Z then
    match nth_error l (Z.to_nat j) with
    | Some a => Ok a
    | None => Raise IndexError
    end
  else Raise IndexError.

(** [v % n] for a positive int [n].  On ints (and bools) it is the floored
    remainder; on a float it is the float remainder; on a string it is
    printf-style formatting, which either raises [TypeError] at once or
    gives a string that no list accepts as an index, so the string case is
    folded into [TypeError]. *)
Definition py_mod (v : pyval) (n : Z) : result pyval :=
  match v with
  | PInt z => Ok (PInt (z mod n))
  | PBool b => Ok (PInt ((if b then 1 else 0) mod n))
  | PFloat x => Ok (PFloat (x - IZR n * IZR (Int_part (x / IZR n))))
  | _ => Raise TypeError
  end.

(** [l[v]] where the index is a Python value: only ints (and bools) index a
    list. *)
Definition list_getitem {A : Type} (l : list A) (v : pyval) : result A :=
  match v with
  | PInt z => list_index l z
  | PBool b => list_index l (if b then 1 else 0)%Z
  | _ => Raise TypeError
  end.

End Py.
Import Py.

Declare Scope py_scope.
Notation "x <- m ;; k" := (bind m (fun x => k))
  (at level 61, m at next level, right associativity) : py_scope.
Open Scope py_scope.

(** ** Three-component vectors *)

Definition vec3 : Type := (R * R * R)%type.

Definition vadd (a b : vec3) : vec3 :=
  let '(ax, ay, az) := a in
  let '(bx, b_y, bz) := b in
  (ax + bx, ay + b_y, az + bz).

Definition vsub (a b : vec3) : vec3 :=
  let '(ax, ay, az) := a in
  let '(bx, b_y, bz) := b in
  (ax - bx, ay - b_y, az - bz).

Definition vscale (k : R) (a : vec3) : vec3 :=
  let '(ax, ay, az) := a in (k * ax, k * ay, k * az).

Definition vx (a : vec3) : R := fst (fst a).
Definition vy (a : vec3) : R := snd (fst a).
Definition vz (a : vec3) : R := snd a.

(** ** The Open3D geometry the script builds *)

Module O3d.

Record TriangleMesh : Type := {
  vertices : list vec3;
  triangles : list (Z * Z * Z);
  vertex_colors : list vec3
}.

Record LineSet : Type := {
  points : list vec3;
  lines : list (Z * Z);
  colors : list vec3
}.

(** Modelled from the spec: the binding's conversion of a Python argument
    to a 3-vector of doubles (Open3D is not part of the repository).  A
    list of exactly three numbers converts; anything else is refused. *)
Definition to_vector3d (v : pyval) : result vec3 :=
  match v with
  | PList [a; b; c] =>
      x <- as_real a ;; y <- as_real b ;; z <- as_real c ;; Ok (x, y, z)
  | _ => Raise TypeError
  end.

(** Modelled from the spec: the mesh of Open3D's [TriangleMesh.create_box],
    "defined with one corner at the origin and extending in the positive
    direction along each axis" (spec 4.1; the source's own comment at line
    16 says the same): eight vertices and twelve triangles, no colours. *)
Definition box_mesh (w h d : R) : TriangleMesh :=
  {| vertices := [ (0, 0, 0); (w, 0, 0); (0, 0, d); (w, 0, d);
                   (0, h, 0); (w, h, 0); (0, h, d); (w, h, d) ];
     triangles := [ (4, 7, 5); (4, 6, 7); (0, 2, 4); (2, 6, 4);
                    (0, 1, 2); (1, 3, 2); (1, 5, 7); (1, 7, 3);
                    (2, 3, 7); (2, 7, 6); (0, 4, 1); (1, 4, 5) ]%Z;
     vertex_colors := [] |}.

(** Modelled from the spec: [TriangleMesh.create_box(width, height, depth)];
    the library refuses a dimension that is not positive. *)
Definition create_box (width height depth : R) : result TriangleMesh :=
  if Rle_dec width 0 then Raise RuntimeError
  else if Rle_dec height 0 then Raise RuntimeError
  else if Rle_dec depth 0 then Raise RuntimeError
  else Ok (box_mesh width height depth).

(** Modelled from the spec: [mesh.translate(t)] adds [t] to every vertex. *)
Definition translate (m : TriangleMesh) (t : vec3) : TriangleMesh :=
  {| vertices := map (fun p => vadd p t) (vertices m);
     triangles := triangles m;
     vertex_colors := vertex_colors m |}.

(** Modelled from the spec: [mesh.paint_uniform_color(c)] gives every
    vertex the colour [c] ("a single flat color to all faces"). *)
Definition paint_uniform_color (m : TriangleMesh) (c : vec3) : TriangleMesh :=
  {| vertices := vertices m;
     triangles := triangles m;
     vertex_colors := map (fun _ => c) (vertices m) |}.

Definition vsum (l : list vec3) : vec3 :=
  fold_right vadd (0, 0, 0) l.

(** Modelled from the spec: the "world-space center" of a mesh, taken as
    Open3D's [mesh.get_center()], the mean of the vertices. *)
Definition get_center (m : TriangleMesh) : vec3 :=
  vscale (/ INR (List.length (vertices m))) (vsum (vertices m)).

Definition vmin (a b : vec3) : vec3 :=
  (Rmin (vx a) (vx b), Rmin (vy a) (vy b), Rmin (vz a) (vz b)).

Definition vmax (a b : vec3) : vec3 :=
  (Rmax (vx a) (vx b), Rmax (vy a) (vy b), Rmax (vz a) (vz b)).

(** Modelled from the spec: the axis-aligned bounds of the vertices
    ([get_min_bound], [get_max_bound]); a mesh without vertices has the
    zero vector for both. *)
Definition get_min_bound (m : TriangleMesh) : vec3 :=
  match vertices m with
  | [] => (0, 0, 0)
  | p :: ps => fold_left vmin ps p
  end.

Definition get_max_bound (m : TriangleMesh) : vec3 :=
  match vertices m with
  | [] => (0, 0, 0)
  | p :: ps => fold_left vmax ps p
  end.

(** Modelled from the spec: centre and "effective half-extent" of a mesh,
    read off its axis-aligned bounding box. *)
Definition aabb_center (m : TriangleMesh) : vec3 :=
  vscale (/ 2) (vadd (get_min_bound m) (get_max_bound m)).

Definition half_extent (m : TriangleMesh) : vec3 :=
  vscale (/ 2) (vsub (get_max_bound m) (get_min_bound m)).

(** Modelled from the spec: [Vector3dVector(rows)] takes an N x 3 array;
    a row that does not have three entries is refused. *)
Definition Vector3dVector (rows : list (list R)) : result (list vec3) :=
  mapM (fun r => match r with
                 | [x; y; z] => Ok (x, y, z)
                 | _ => Raise RuntimeError
                 end) rows.

(** Modelled from the spec: [Vector2iVector(rows)] takes an N x 2 integer
    array. *)
Definition Vector2iVector (rows : list (list Z)) : result (list (Z * Z)) :=
  mapM (fun r => match r with
                 | [i; j] => Ok (i, j)
                 | _ => Raise RuntimeError
                 end) rows.

End O3d.
Import O3d.

(** ** The NumPy array operations the script uses *)

Module Np.

(** A 1-D array is a list, a 2-D array the list of its rows.  The
    operations below are NumPy's on arrays whose shapes conform, which the
    typed arguments of [create_camera_frustum] guarantee. *)
Definition array1 : Type := list R.
Definition array2 : Type := list (list R).

Definition mat3 : Type := (vec3 * vec3 * vec3)%type.

Definition of_vec3 (v : vec3) : array1 :=
  let '(x, y, z) := v in [x; y; z].

Definition of_mat3 (m : mat3) : array2 :=
  let '(r0, r1, r2) := m in [of_vec3 r0; of_vec3 r1; of_vec3 r2].

Fixpoint dot (u v : array1) : R :=
  match u, v with
  | x :: u', y :: v' => x * y + dot u' v'
  | _, _ => 0
  end.

Definition ncols (a : array2) : nat :=
  match a with
  | [] => O
  | r :: _ => List.length r
  end.

Definition column (j : nat) (a : array2) : array1 :=
  map (fun r => nth j r 0) a.

(** [a.T] *)
Definition transpose (a : array2) : array2 :=
  map (fun j => column j a) (seq 0 (ncols a)).

(** [a @ b] *)
Definition matmul (a b : array2) : array2 :=
  map (fun r => map (fun c => dot r c) (transpose b)) a.

(** [a + v] with the 1-D [v] broadcast over the rows of [a]. *)
Definition add_rows (a : array2) (v : array1) : array2 :=
  map (fun r => map (fun xy => fst xy + snd xy) (combine r v)) a.

(** [np.deg2rad] *)
Definition deg2rad (x : R) : R := x * (PI / 180).

End Np.
Import Np.

(** ** scripts/visualization.py *)

(** The first definition of [create_colored_box] (lines 5-22).  The second
    definition below rebinds the name, so this one is never called; it is
    kept at its documented argument shapes, [center] and
    [extent = [ext_x, ext_y, ext_z]], to compare the two. *)
Definition create_colored_box_shadowed (center extent color : vec3)
  : result TriangleMesh :=
  box <- create_box (2 * vx extent) (2 * vy extent) (2 * vz extent) ;;
  let translation := vsub center (vx extent, vy extent, vz extent) in
  let box := translate box translation in
  let box := paint_uniform_color box color in
  Ok box.

(** Line 102: [[max(e, 0.01) for e in extent]]. *)
Definition clamp_extent (extent : pyval) : result (list R) :=
  es <- iterate extent ;;
  mapM (fun e => x <- as_real e ;; Ok (py_max x 0.01)) es.

(** The live [create_colored_box] (lines 100-114); the unused keyword
    arguments [label] and [description] are left out. *)
Definition create_colored_box (center extent color : pyval)
  : result TriangleMesh :=
  extent <- clamp_extent extent ;;
  e0 <- list_index extent 0 ;;
  e1 <- list_index extent 1 ;;
  e2 <- list_index extent 2 ;;
  box <- create_box (2 * e0) (2 * e1) (2 * e2) ;;
  t <- to_vector3d center ;;
  let box := translate box t in
  c <- to_vector3d color ;;
  let box := paint_uniform_color box c in
  Ok box.

(** The keyword arguments of [create_camera_frustum] and their defaults. *)
Record intrinsics : Type := {
  fx : R; fy : R; cx : R; cy : R; width : R; height : R; depth : R
}.

Definition default_intrinsics : intrinsics :=
  {| fx := 500; fy := 500; cx := 320; cy := 240;
     width := 640; height := 480; depth := 5.0 |}.

(** Lines 50-55. *)
Definition corners_2d (K : intrinsics) : list (R * R) :=
  [ (0, 0); (width K, 0); (width K, height K); (0, height K) ].

(** Lines 59-63: one pass of the loop body. *)
Definition unproject (K : intrinsics) (uv : R * R) : array1 :=
  let '(u, v) := uv in
  let x := (u - cx K) * depth K / fx K in
  let y := (v - cy K) * depth K / fy K in
  let z := depth K in
  [x; y; z].

Definition frustum_lines : list (list Z) :=
  [ [0; 1]; [0; 2]; [0; 3]; [0; 4];
    [1; 2]; [2; 3]; [3; 4]; [4; 1] ]%Z.

(** [create_camera_frustum] (lines 24-98).  The source's local [R] is
    [rot] here. *)
Definition create_camera_frustum (camera_translation : vec3)
    (camera_rotation : mat3) (K : intrinsics) : result LineSet :=
  let cam_center := of_vec3 camera_translation in
  let rot := of_mat3 camera_rotation in
  let corners_3d_cam := map (unproject K) (corners_2d K) in
  let corners_3d_world :=
    add_rows (transpose (matmul rot (transpose corners_3d_cam))) cam_center in
  let points := ([cam_center] ++ corners_3d_world)%list in
  let lines := frustum_lines in
  pts <- Vector3dVector points ;;
  lns <- Vector2iVector lines ;;
  let colors := map (fun _ => [0; 1; 0]) lines in
  cols <- Vector3dVector colors ;;
  Ok {| points := pts; lines := lns; colors := cols |}.

(** *** The driver (lines 116-183) *)

Definition color_palette : list pyval :=
  [ PList [PInt 1; PInt 0; PInt 0];
    PList [PInt 0; PInt 1; PInt 0];
    PList [PInt 0; PInt 0; PInt 1];
    PList [PInt 1; PInt 1; PInt 0];
    PList [PInt 1; PInt 0; PInt 1];
    PList [PInt 0; PInt 1; PInt 1] ].

Inductive geometry : Type :=
| GMesh (m : TriangleMesh)
| GLines (l : LineSet).

(** What line 151 prints: the record's id and the exception. *)
Inductive log_line : Type :=
| ErrorCreatingBox (id : pyval) (e : exn).

Record state : Type := {
  geometries : list geometry;
  stdout : list log_line
}.

Definition initial_state : state := {| geometries := []; stdout := [] |}.

Definition append (g : geometry) (st : state) : state :=
  {| geometries := (geometries st ++ [g])%list; stdout := stdout st |}.

Definition print (l : log_line) (st : state) : state :=
  {| geometries := geometries st; stdout := (stdout st ++ [l])%list |}.

(** Line 145: [color_palette[obj["id"] % len(color_palette)]]. *)
Definition pick_color (obj : pyval) : result pyval :=
  id <- getitem obj "id" ;;
  i <- py_mod id (Z.of_nat (List.length color_palette)) ;;
  list_getitem color_palette i.

(** Lines 143-151: the body of the object loop. *)
Definition box_step (obj : pyval) (st : state) : result state :=
  bbox_center <- getitem obj "bbox_center" ;;
  bbox_extent <- getitem obj "bbox_extent" ;;
  color <- pick_color obj ;;
  match create_colored_box bbox_center bbox_extent color with
  | Ok box => Ok (append (GMesh box) st)
  | Raise e =>
      id <- getitem obj "id" ;;
      Ok (print (ErrorCreatingBox id e) st)
  end.

(** Line 142: [for key, obj in concept_graph.items()]. *)
Fixpoint box_loop (items : list (string * pyval)) (st : state) : result state :=
  match items with
  | [] => Ok st
  | (_, obj) :: rest => st' <- box_step obj st ;; box_loop rest st'
  end.

(** Lines 165-169: the closed-form matrix, angles in radians. *)
Definition rotation_matrix (yaw pitch roll : R) : mat3 :=
  ( (cos yaw * cos pitch,
     cos yaw * sin pitch * sin roll - sin yaw * cos roll,
     cos yaw * sin pitch * cos roll + sin yaw * sin roll),
    (sin yaw * cos pitch,
     sin yaw * sin pitch * sin roll + cos yaw * cos roll,
     sin yaw * sin pitch * cos roll - cos yaw * sin roll),
    (- sin pitch, cos pitch * sin roll, cos pitch * cos roll) ).

(** A camera record of [camera_poses.json] with its six numbers present,
    angles in degrees; the camera loop is modelled on such records. *)
Record camera_record : Type := {
  cam_x : R; cam_y : R; cam_z : R;
  cam_yaw : R; cam_pitch : R; cam_roll : R
}.

(** Lines 162-169: the matrix the driver hands to the frustum builder. *)
Definition driver_rotation (yaw_deg pitch_deg roll_deg : R) : mat3 :=
  let yaw := deg2rad yaw_deg in
  let pitch := deg2rad pitch_deg in
  let roll := deg2rad roll_deg in
  rotation_matrix yaw pitch roll.

(** Lines 159-171: the body of the camera loop. *)
Definition camera_step (cam : camera_record) (st : state) : result state :=
  let translation := (cam_x cam, cam_y cam, cam_z cam) in
  let rotation := driver_rotation (cam_yaw cam) (cam_pitch cam) (cam_roll cam) in
  frustum <- create_camera_frustum translation rotation default_intrinsics ;;
  Ok (append (GLines frustum) st).

Fixpoint camera_loop (cams : list camera_record) (st : state) : result state :=
  match cams with
  | [] => Ok st
  | cam :: rest => st' <- camera_step cam st ;; camera_loop rest st'
  end.

(** [concept_graph.items()]: only a dict has the method. *)
Definition dict_items (v : pyval) : result (list (string * pyval)) :=
  match v with
  | PDict d => Ok d
  | _ => Raise AttributeError
  end.

(** The whole run up to the call of the viewer: the state it returns holds
    the list handed to [draw_geometries]; [Raise] is an uncaught exception
    that ends the process. *)
Definition main (concept_graph : pyval) (cameras : list camera_record)
  : result state :=
  items <- dict_items concept_graph ;;
  st <- box_loop items initial_state ;;
  camera_loop cameras st.

(** *** The camera loop on the raw JSON document *)

(** [d.get(k, default)]: only a dict has the method, and a missing key
    gives the default instead of raising. *)
Definition dict_get (v : pyval) (k : string) (default : pyval) : result pyval :=
  match v with
  | PDict d =>
      Ok (match lookup k d with
          | Some x => x
          | None => default
          end)
  | _ => Raise AttributeError
  end.

(** Lines 159-164: the reads of one camera record, in the order the loop
    body makes them.  The three coordinates are looked up first (the list
    literal of line 161), then turned into an array; each angle is looked
    up and converted in turn.  A field that is present but is not a number
    is refused here with [TypeError]; NumPy words and times that refusal
    in its own way, so the statements on this function assume nothing
    about such fields. *)
Definition read_camera (cam : pyval) : result camera_record :=
  camera_position <- getitem cam "camera_position" ;;
  camera_orientation <- getitem cam "camera_orientation" ;;
  x <- getitem camera_position "x" ;;
  y <- getitem camera_position "y" ;;
  z <- getitem camera_position "z" ;;
  x <- as_real x ;; y <- as_real y ;; z <- as_real z ;;
  yaw <- getitem camera_orientation "yaw" ;;
  yaw <- as_real yaw ;;
  pitch <- getitem camera_orientation "pitch" ;;
  pitch <- as_real pitch ;;
  roll <- getitem camera_orientation "roll" ;;
  roll <- as_real roll ;;
  Ok {| cam_x := x; cam_y := y; cam_z := z;
        cam_yaw := yaw; cam_pitch := pitch; cam_roll := roll |}.

(** Lines 158-171 on raw records: nothing in this loop is caught. *)
Fixpoint json_camera_loop (cams : list pyval) (st : state) : result state :=
  match cams with
  | [] => Ok st
  | cam :: rest =>
      record <- read_camera cam ;;
      st' <- camera_step record st ;;
      json_camera_loop rest st'
  end.

(** The run on the two parsed JSON documents (lines 116-171). *)
Definition main_json (concept_graph camera_poses : pyval) : result state :=
  items <- dict_items concept_graph ;;
  st <- box_loop items initial_state ;;
  cameras <- dict_get camera_poses "cameras" (PList []) ;;
  cams <- iterate cameras ;;
  json_camera_loop cams st.

(** ** Reference definitions the claims compare the code with *)

(** [R @ p] for a 3 x 3 matrix and a 3-vector, written out. *)
Definition mat3_apply (M : mat3) (p : vec3) : vec3 :=
  let '(r0, r1, r2) := M in
  let '(x, y, z) := p in
  (vx r0 * x + vy r0 * y + vz r0 * z,
   vx r1 * x + vy r1 * y + vz r1 * z,
   vx r2 * x + vy r2 * y + vz r2 * z).

(** The inverse pinhole model of spec 4.2, step 2. *)
Definition pinhole_unproject (K : intrinsics) (uv : R * R) : vec3 :=
  ((fst uv - cx K) * depth K / fx K,
   (snd uv - cy K) * depth K / fy K,
   depth K).

(** Spec 4.2, step 3: [world = R @ cam_point + camera_position]. *)
Definition camera_to_world (t : vec3) (M : mat3) (p : vec3) : vec3 :=
  vadd (mat3_apply M p) t.

Definition identity3 : mat3 := ((1, 0, 0), (0, 1, 0), (0, 0, 1)).

(** Product of two 3 x 3 matrices, row by column. *)
Definition mat3_mul (A B : mat3) : mat3 :=
  let '(a0, a1, a2) := A in
  let '(b0, b1, b2) := B in
  let row (a : vec3) : vec3 :=
    (vx a * vx b0 + vy a * vx b1 + vz a * vx b2,
     vx a * vy b0 + vy a * vy b1 + vz a * vy b2,
     vx a * vz b0 + vy a * vz b1 + vz a * vz b2) in
  (row a0, row a1, row a2).

(** The elementary rotations about the z, y and x axes. *)
Definition Rz (a : R) : mat3 :=
  ((cos a, - sin a, 0), (sin a, cos a, 0), (0, 0, 1)).

Definition Ry (a : R) : mat3 :=
  ((cos a, 0, sin a), (0, 1, 0), (- sin a, 0, cos a)).

Definition Rx (a : R) : mat3 :=
  ((1, 0, 0), (0, cos a, - sin a), (0, sin a, cos a)).

(** [frustum_points t M K] is the point list of the line set, or the empty
    list had the call raised. *)
Definition frustum_points (t : vec3) (M : mat3) (K : intrinsics) : list vec3 :=
  match create_camera_frustum t M K with
  | Ok ls => points ls
  | Raise _ => []
  end.

(** A corner-origin box of full size [w], [h], [d] moved by [c] and
    painted [col]: what both box builders return. *)
Definition placed (w h d : R) (c col : vec3) : TriangleMesh :=
  paint_uniform_color (translate (box_mesh w h d) c) col.

(** What the body of the object loop evaluates before it enters the [try]
    block (lines 143-145): the three field reads and the palette lookup. *)
Definition read_fields (obj : pyval) : result (pyval * pyval * pyval) :=
  bbox_center <- getitem obj "bbox_center" ;;
  bbox_extent <- getitem obj "bbox_extent" ;;
  color <- pick_color obj ;;
  Ok (bbox_center, bbox_extent, color).

Definition has_fields (obj : pyval) : bool :=
  match read_fields obj with
  | Ok _ => true
  | Raise _ => false
  end.

(** The boxes of the records whose [create_colored_box] call returns, in
    order, and the lines printed for those whose call raises. *)
Definition built_boxes (items : list (string * pyval)) : list geometry :=
  flat_map
    (fun kv =>
       match read_fields (snd kv) with
       | Ok (center, extent, color) =>
           match create_colored_box center extent color with
           | Ok box => [GMesh box]
           | Raise _ => []
           end
       | Raise _ => []
       end) items.

Definition logged_errors (items : list (string * pyval)) : list log_line :=
  flat_map
    (fun kv =>
       match read_fields (snd kv), getitem (snd kv) "id" with
       | Ok (center, extent, color), Ok id =>
           match create_colored_box center extent color with
           | Ok _ => []
           | Raise e => [ErrorCreatingBox id e]
           end
       | _, _ => []
       end) items.

(** The transpose and the determinant of a 3 x 3 matrix. *)
Definition mat3_transpose (A : mat3) : mat3 :=
  let '(a0, a1, a2) := A in
  ((vx a0, vx a1, vx a2), (vy a0, vy a1, vy a2), (vz a0, vz a1, vz a2)).

Definition mat3_det (A : mat3) : R :=
  let '(a0, a1, a2) := A in
  vx a0 * (vy a1 * vz a2 - vz a1 * vy a2)
  - vy a0 * (vx a1 * vz a2 - vz a1 * vx a2)
  + vz a0 * (vx a1 * vy a2 - vy a1 * vx a2).

(** Squared Euclidean length and distance. *)
Definition norm2 (a : vec3) : R := vx a * vx a + vy a * vy a + vz a * vz a.

Definition dist2 (a b : vec3) : R := norm2 (vsub a b).

(** The third column of a matrix: where the rotation sends the optical
    axis [(0, 0, 1)] of the camera frame. *)
Definition optical_axis (A : mat3) : vec3 :=
  let '(a0, a1, a2) := A in (vz a0, vz a1, vz a2).

(** Whether both endpoints of a segment index one of [n] points. *)
Definition segment_in_range (n : Z) (seg : Z * Z) : bool :=
  ((0 <=? fst seg) && (fst seg <? n) && (0 <=? snd seg) && (snd seg <? n))%Z.

(** The line set of one typed camera record, as the driver builds it. *)
Definition camera_frustum (cam : camera_record) : result LineSet :=
  create_camera_frustum (cam_x cam, cam_y cam, cam_z cam)
    (driver_rotation (cam_yaw cam) (cam_pitch cam) (cam_roll cam))
    default_intrinsics.

(** The frustums of a list of typed records, in order. *)
Definition built_frustums (cams : list camera_record) : list geometry :=
  flat_map (fun cam => match camera_frustum cam with
                       | Ok ls => [GLines ls]
                       | Raise _ => []
                       end) cams.

(** A JSON number. *)
Definition is_number (v : pyval) : bool :=
  match v with
  | PInt _ | PFloat _ => true
  | _ => false
  end.

(** An id that line 145 refuses with [TypeError]: null, a list and a dict
    have no remainder by an int, and the remainder of a float is a float,
    which indexes no list.  Strings are left out: [%] on a string is
    formatting. *)
Definition unusable_id (v : pyval) : bool :=
  match v with
  | PNone | PFloat _ | PList _ | PDict _ => true
  | _ => false
  end.

Definition is_dict (v : pyval) : bool :=
  match v with
  | PDict _ => true
  | _ => false
  end.


(** * Proofs *)

(** Equality of lists of tuples of reals, component by component. *)
Ltac list_eq :=
  repeat match goal with
         | |- _ :: _ = _ :: _ => apply (f_equal2 cons)
         | |- (_, _) = (_, _) => apply (f_equal2 pair)
         | |- @nil _ = @nil _ => reflexivity
         end.

(** ** The frustum builder *)

Section Frustum.

Variable t : vec3.
Variable M : mat3.
Variable K : intrinsics.

(** The whole result of [create_camera_frustum], for any pose and any
    intrinsics: the call never raises. *)
Lemma create_camera_frustum_eq :
  create_camera_frustum t M K =
  Ok {| points := t :: map (fun uv => camera_to_world t M (pinhole_unproject K uv))
                           (corners_2d K);
        lines := [ (0, 1); (0, 2); (0, 3); (0, 4);
                   (1, 2); (2, 3); (3, 4); (4, 1) ]%Z;
        colors := repeat (0, 1, 0) 8 |}.
Proof.
  destruct t as [[tx ty] tz].
  destruct M as [[[[a00 a01] a02] [[a10 a11] a12]] [[a20 a21] a22]].
  unfold create_camera_frustum. cbn.
  f_equal. f_equal. list_eq; ring.
Qed.

End Frustum.

(** C5: every pixel corner [(u, v)] of the image is unprojected to
    [((u-cx)*depth/fx, (v-cy)*depth/fy, depth)] and mapped to
    [R @ cam_point + t]: the call returns a line set whose points after the
    first are exactly these world points, corner by corner. *)
Theorem frustum_unprojects_and_transforms :
  forall (t : vec3) (M : mat3) (K : intrinsics),
  exists ls,
    create_camera_frustum t M K = Ok ls /\
    tl (points ls) =
      map (fun uv =>
             camera_to_world t M
               ((fst uv - cx K) * depth K / fx K,
                (snd uv - cy K) * depth K / fy K,
                depth K))
          (corners_2d K).
Proof.
  intros t M K. eexists. split.
  - apply create_camera_frustum_eq.
  - reflexivity.
Qed.

(** C6: for every pose, rotation and intrinsics the line set has exactly
    five points, the camera centre first and then the top-left, top-right,
    bottom-right and bottom-left corners, and exactly the eight segments
    0-1, 0-2, 0-3, 0-4, 1-2, 2-3, 3-4, 4-1. *)
Theorem frustum_five_points_eight_lines :
  forall (t : vec3) (M : mat3) (K : intrinsics),
  exists ls,
    create_camera_frustum t M K = Ok ls /\
    List.length (points ls) = 5%nat /\
    List.length (lines ls) = 8%nat /\
    points ls =
      [ t;
        camera_to_world t M (pinhole_unproject K (0, 0));
        camera_to_world t M (pinhole_unproject K (width K, 0));
        camera_to_world t M (pinhole_unproject K (width K, height K));
        camera_to_world t M (pinhole_unproject K (0, height K)) ] /\
    lines ls =
      [ (0, 1); (0, 2); (0, 3); (0, 4);
        (1, 2); (2, 3); (3, 4); (4, 1) ]%Z.
Proof.
  intros t M K. eexists. split.
  - apply create_camera_frustum_eq.
  - cbn. repeat split.
Qed.

(** C9: point 0 of the line set is the camera translation itself, whatever
    the rotation matrix and the intrinsics are. *)
Theorem frustum_point0_is_translation :
  forall (t : vec3) (M M' : mat3) (K K' : intrinsics),
    nth_error (frustum_points t M K) 0 = Some t /\
    nth_error (frustum_points t M' K') 0 = nth_error (frustum_points t M K) 0.
Proof.
  intros t M M' K K'. unfold frustum_points.
  rewrite !create_camera_frustum_eq. split; reflexivity.
Qed.

(** C2, as the spec states it, fails: with the default intrinsics the
    first corner is not [(-1.6, -1.2, 5)]. *)
Lemma default_corners_differ_from_spec_values :
  frustum_points (0, 0, 0) identity3 default_intrinsics <>
  [ (0, 0, 0); (-1.6, -1.2, 5); (1.6, -1.2, 5); (1.6, 1.2, 5); (-1.6, 1.2, 5) ].
Proof.
  unfold frustum_points. rewrite create_camera_frustum_eq. cbn.
  intros H. injection H as H. lra.
Qed.

(** C2, amended: for a camera at the origin with identity rotation and the
    default intrinsics, point 0 is [(0,0,0)] and points 1-4 are
    [(-3.2,-2.4,5)], [(3.2,-2.4,5)], [(3.2,2.4,5)], [(-3.2,2.4,5)]. *)
Theorem frustum_default_corners :
  frustum_points (0, 0, 0) identity3 default_intrinsics =
  [ (0, 0, 0); (-3.2, -2.4, 5); (3.2, -2.4, 5); (3.2, 2.4, 5); (-3.2, 2.4, 5) ].
Proof.
  unfold frustum_points. rewrite create_camera_frustum_eq. cbn.
  list_eq; lra.
Qed.

(** ** The driver's rotation matrix *)

(** C7: for every yaw, pitch and roll in degrees, the matrix the driver
    builds (angles converted to radians, then the closed-form formula with
    third row [(-sin pitch, cos pitch * sin roll, cos pitch * cos roll)])
    is the product [Rz(yaw) * Ry(pitch) * Rx(roll)] of the elementary
    rotations. *)
Theorem driver_rotation_is_tait_bryan :
  forall yaw_deg pitch_deg roll_deg : R,
    driver_rotation yaw_deg pitch_deg roll_deg =
      mat3_mul (mat3_mul (Rz (deg2rad yaw_deg)) (Ry (deg2rad pitch_deg)))
               (Rx (deg2rad roll_deg)) /\
    snd (driver_rotation yaw_deg pitch_deg roll_deg) =
      (- sin (deg2rad pitch_deg),
       cos (deg2rad pitch_deg) * sin (deg2rad roll_deg),
       cos (deg2rad pitch_deg) * cos (deg2rad roll_deg)).
Proof.
  intros y p r. split; [| reflexivity].
  unfold driver_rotation, rotation_matrix, mat3_mul, Rz, Ry, Rx, vx, vy, vz.
  cbn [fst snd].
  list_eq; ring.
Qed.

(** ** The box builder *)

Lemma create_box_pos (w h d : R) :
  0 < w -> 0 < h -> 0 < d -> create_box w h d = Ok (box_mesh w h d).
Proof.
  intros Hw Hh Hd. unfold create_box.
  destruct (Rle_dec w 0); [lra |].
  destruct (Rle_dec h 0); [lra |].
  destruct (Rle_dec d 0); [lra |].
  reflexivity.
Qed.

Lemma py_max_Rmax (a b : R) : py_max a b = Rmax a b.
Proof.
  unfold py_max, Rmax.
  destruct (Rlt_dec a b), (Rle_dec a b); lra.
Qed.

Lemma py_max_lower (a b : R) : b <= py_max a b.
Proof. unfold py_max. destruct (Rlt_dec a b); lra. Qed.

Lemma to_vector3d_inv (v : pyval) (x y z : R) :
  to_vector3d v = Ok (x, y, z) ->
  exists a b c,
    v = PList [a; b; c] /\
    as_real a = Ok x /\ as_real b = Ok y /\ as_real c = Ok z.
Proof.
  unfold to_vector3d.
  destruct v as [| | | | | l |]; try discriminate.
  destruct l as [| a [| b [| c [| ? ?]]]]; try discriminate.
  destruct (as_real a) as [x' |] eqn:Ha; [| discriminate].
  destruct (as_real b) as [y' |] eqn:Hb; [| discriminate].
  destruct (as_real c) as [z' |] eqn:Hc; [| discriminate].
  cbn. intros H. injection H as -> -> ->.
  exists a, b, c. auto.
Qed.

(** Line 102 on a vector of three numbers. *)
Lemma clamp_extent_vec (extent : pyval) (ex ey ez : R) :
  to_vector3d extent = Ok (ex, ey, ez) ->
  clamp_extent extent =
    Ok [py_max ex 0.01; py_max ey 0.01; py_max ez 0.01].
Proof.
  intros H. apply to_vector3d_inv in H as (a & b & c & -> & Ha & Hb & Hc).
  unfold clamp_extent. cbn. rewrite Ha, Hb, Hc. reflexivity.
Qed.

Lemma list_index_0 {A : Type} (a b c : A) : list_index [a; b; c] 0 = Ok a.
Proof. reflexivity. Qed.

Lemma list_index_1 {A : Type} (a b c : A) : list_index [a; b; c] 1 = Ok b.
Proof. reflexivity. Qed.

Lemma list_index_2 {A : Type} (a b c : A) : list_index [a; b; c] 2 = Ok c.
Proof. reflexivity. Qed.

(** The live builder on well-formed arguments: it returns the corner-origin
    box of full size [2 * max(e, 0.01)] moved by [center]. *)
Lemma create_colored_box_eq (center extent color : pyval) (c e col : vec3) :
  to_vector3d center = Ok c ->
  to_vector3d extent = Ok e ->
  to_vector3d color = Ok col ->
  create_colored_box center extent color =
    Ok (placed (2 * py_max (vx e) 0.01) (2 * py_max (vy e) 0.01)
               (2 * py_max (vz e) 0.01) c col).
Proof.
  intros Hc He Hcol. destruct e as [[ex ey] ez].
  unfold create_colored_box.
  rewrite (clamp_extent_vec _ _ _ _ He). cbn [bind].
  rewrite list_index_0, list_index_1, list_index_2. cbn [bind].
  pose proof (py_max_lower ex 0.01).
  pose proof (py_max_lower ey 0.01).
  pose proof (py_max_lower ez 0.01).
  rewrite create_box_pos by lra. cbn.
  rewrite Hc. cbn. rewrite Hcol. reflexivity.
Qed.

Section BoxBounds.

Variables w h d : R.
Variable c col : vec3.
Hypothesis Hw : 0 < w.
Hypothesis Hh : 0 < h.
Hypothesis Hd : 0 < d.

Lemma placed_min_bound : get_min_bound (placed w h d c col) = c.
Proof.
  destruct c as [[x y] z].
  unfold placed, get_min_bound, vmin, vx, vy, vz. cbn.
  repeat match goal with
         | |- context [Rmin ?a ?b] =>
             first [ rewrite (Rmin_left a b) by lra
                   | rewrite (Rmin_right a b) by lra ]
         end.
  list_eq; lra.
Qed.

Lemma placed_max_bound :
  get_max_bound (placed w h d c col) = vadd c (w, h, d).
Proof.
  destruct c as [[x y] z].
  unfold placed, get_max_bound, vmax, vx, vy, vz. cbn.
  repeat match goal with
         | |- context [Rmax ?a ?b] =>
             first [ rewrite (Rmax_left a b) by lra
                   | rewrite (Rmax_right a b) by lra ]
         end.
  list_eq; lra.
Qed.

Lemma placed_half_extent :
  half_extent (placed w h d c col) = (w / 2, h / 2, d / 2).
Proof.
  unfold half_extent. rewrite placed_min_bound, placed_max_bound.
  destruct c as [[x y] z]. cbn. list_eq; lra.
Qed.

Lemma placed_aabb_center :
  aabb_center (placed w h d c col) = vadd c (w / 2, h / 2, d / 2).
Proof.
  unfold aabb_center. rewrite placed_min_bound, placed_max_bound.
  destruct c as [[x y] z]. cbn. list_eq; lra.
Qed.

Lemma placed_get_center :
  get_center (placed w h d c col) = vadd c (w / 2, h / 2, d / 2).
Proof.
  destruct c as [[x y] z]. unfold placed, get_center. cbn.
  list_eq; lra.
Qed.

End BoxBounds.

(** Where the live builder puts the box, for any well-formed arguments: the
    corner of the box, not its centre, lands on [center]. *)
Lemma live_box_placement (center extent color : pyval) (c e col : vec3) :
  to_vector3d center = Ok c ->
  to_vector3d extent = Ok e ->
  to_vector3d color = Ok col ->
  exists box,
    create_colored_box center extent color = Ok box /\
    get_min_bound box = c /\
    get_center box =
      vadd c (py_max (vx e) 0.01, py_max (vy e) 0.01, py_max (vz e) 0.01) /\
    half_extent box =
      (py_max (vx e) 0.01, py_max (vy e) 0.01, py_max (vz e) 0.01).
Proof.
  intros Hc He Hcol. eexists. split.
  - apply (create_colored_box_eq _ _ _ _ _ _ Hc He Hcol).
  - pose proof (py_max_lower (vx e) 0.01).
    pose proof (py_max_lower (vy e) 0.01).
    pose proof (py_max_lower (vz e) 0.01).
    rewrite placed_min_bound, placed_get_center, placed_half_extent by lra.
    split; [reflexivity |].
    split; [destruct c as [[x y] z]; cbn |]; list_eq; lra.
Qed.

(** The first, shadowed definition does centre the box: for positive
    half-extents the centre of its box is [center]. *)
Lemma shadowed_box_is_centered (center extent color : vec3) :
  0 < vx extent -> 0 < vy extent -> 0 < vz extent ->
  exists box,
    create_colored_box_shadowed center extent color = Ok box /\
    get_center box = center /\
    half_extent box = extent.
Proof.
  intros Hx Hy Hz. unfold create_colored_box_shadowed.
  rewrite create_box_pos by lra. cbn [bind].
  exists (placed (2 * vx extent) (2 * vy extent) (2 * vz extent)
                 (vsub center (vx extent, vy extent, vz extent)) color).
  split; [reflexivity |].
  rewrite placed_get_center, placed_half_extent by lra.
  destruct center as [[x y] z], extent as [[ex ey] ez].
  unfold vx, vy, vz in *. cbn in *. split; list_eq; lra.
Qed.

(** C1 at [center = [0,0,0]], [extent = [1,1,1]], [color = [1,0,0]]: the
    live builder returns the box spanning [[0,2]] on every axis, whose
    centre is [(1,1,1)], not the input centre [(0,0,0)]. *)
Theorem live_box_center_is_offset :
  exists box,
    create_colored_box (PList [PInt 0; PInt 0; PInt 0])
                       (PList [PInt 1; PInt 1; PInt 1])
                       (PList [PInt 1; PInt 0; PInt 0]) = Ok box /\
    get_min_bound box = (0, 0, 0) /\
    get_max_bound box = (2, 2, 2) /\
    get_center box = (1, 1, 1) /\
    aabb_center box = (1, 1, 1) /\
    get_center box <> (0, 0, 0).
Proof.
  assert (Hm : py_max 1 0.01 = 1).
  { unfold py_max. destruct (Rlt_dec 1 0.01); lra. }
  eexists. split.
  - eapply create_colored_box_eq; reflexivity.
  - unfold vx, vy, vz. cbn [fst snd]. rewrite Hm.
    rewrite placed_min_bound, placed_max_bound, placed_get_center,
      placed_aabb_center by lra.
    cbn. repeat split; try (list_eq; lra).
    intros H. injection H as H. lra.
Qed.

(** C4: for every extent vector (and a well-formed centre and colour) the
    live builder raises nothing and builds a box whose half-extent on each
    axis is [max(e, 0.01)]: at least 0.01, and exactly 0.01 on every axis
    whose extent component is at most 0.01, zero and negative included. *)
Theorem live_box_extent_clamped :
  forall (center extent color : pyval) (c e col : vec3),
    to_vector3d center = Ok c ->
    to_vector3d extent = Ok e ->
    to_vector3d color = Ok col ->
    clamp_extent extent =
      Ok [Rmax (vx e) 0.01; Rmax (vy e) 0.01; Rmax (vz e) 0.01] /\
    exists box,
      create_colored_box center extent color = Ok box /\
      half_extent box = (Rmax (vx e) 0.01, Rmax (vy e) 0.01, Rmax (vz e) 0.01) /\
      (0.01 <= vx (half_extent box) /\
       0.01 <= vy (half_extent box) /\
       0.01 <= vz (half_extent box)) /\
      (vx e <= 0.01 -> vx (half_extent box) = 0.01) /\
      (vy e <= 0.01 -> vy (half_extent box) = 0.01) /\
      (vz e <= 0.01 -> vz (half_extent box) = 0.01).
Proof.
  intros center extent color c e col Hc He Hcol.
  split.
  - destruct e as [[ex ey] ez]. rewrite (clamp_extent_vec _ _ _ _ He).
    unfold vx, vy, vz. cbn [fst snd]. now rewrite !py_max_Rmax.
  - destruct (live_box_placement _ _ _ _ _ _ Hc He Hcol)
      as (box & Hbox & _ & _ & Hhalf).
    exists box. split; [exact Hbox |].
    rewrite Hhalf, !py_max_Rmax. unfold vx at 2 4, vy at 2 4, vz at 2 4.
    cbn [fst snd].
    split; [reflexivity |].
    split; [repeat split; apply Rmax_r |].
    repeat split; intros Hle; now apply Rmax_right.
Qed.

Lemma live_box_extent_clamped_witness :
  exists box,
    create_colored_box (PList [PFloat 1; PFloat 2; PFloat 3])
                       (PList [PInt 0; PFloat (-1); PFloat 0.5])
                       (PList [PInt 1; PInt 0; PInt 0]) = Ok box /\
    vx (half_extent box) = 0.01 /\
    vy (half_extent box) = 0.01.
Proof.
  destruct (live_box_extent_clamped
              (PList [PFloat 1; PFloat 2; PFloat 3])
              (PList [PInt 0; PFloat (-1); PFloat 0.5])
              (PList [PInt 1; PInt 0; PInt 0])
              (1, 2, 3) (0, -1, 0.5) (1, 0, 0)
              eq_refl eq_refl eq_refl)
    as (_ & box & Hbox & _ & _ & Hx & Hy & _).
  exists box. split; [exact Hbox |].
  split; [apply Hx | apply Hy]; cbn; lra.
Defined.

(** ** The object loop of the driver *)

Lemma pick_color_has_id (obj color : pyval) :
  pick_color obj = Ok color -> exists id, getitem obj "id" = Ok id.
Proof.
  unfold pick_color. destruct (getitem obj "id") as [id |]; [| discriminate].
  intros _. now exists id.
Qed.

Lemma read_fields_inv (obj center extent color : pyval) :
  read_fields obj = Ok (center, extent, color) ->
  getitem obj "bbox_center" = Ok center /\
  getitem obj "bbox_extent" = Ok extent /\
  pick_color obj = Ok color.
Proof.
  unfold read_fields.
  destruct (getitem obj "bbox_center") as [c |]; [| discriminate].
  destruct (getitem obj "bbox_extent") as [e |]; [| discriminate].
  destruct (pick_color obj) as [col |]; [| discriminate].
  cbn. intros H. injection H as -> -> ->. auto.
Qed.

(** The loop body, split at the [try]. *)
Lemma box_step_split (obj : pyval) (st : state) :
  box_step obj st =
    (f <- read_fields obj ;;
     let '(center, extent, color) := f in
     match create_colored_box center extent color with
     | Ok box => Ok (append (GMesh box) st)
     | Raise e => id <- getitem obj "id" ;; Ok (print (ErrorCreatingBox id e) st)
     end).
Proof.
  unfold box_step, read_fields.
  destruct (getitem obj "bbox_center"); [| reflexivity].
  destruct (getitem obj "bbox_extent"); [| reflexivity].
  destruct (pick_color obj); reflexivity.
Qed.

(** An exception leaves the loop body exactly when it was raised before
    the [try]. *)
Lemma box_step_raise_iff (obj : pyval) (st : state) (e : exn) :
  box_step obj st = Raise e <-> read_fields obj = Raise e.
Proof.
  rewrite box_step_split.
  destruct (read_fields obj) as [[[center extent] color] | e'] eqn:Hf; cbn.
  - apply read_fields_inv in Hf as (_ & _ & Hcol).
    apply pick_color_has_id in Hcol as (id & Hid). rewrite Hid.
    destruct (create_colored_box center extent color); cbn;
      split; discriminate.
  - split; intros H; injection H as ->; reflexivity.
Qed.

Lemma box_step_caught (obj : pyval) (st : state)
    (center extent color id : pyval) :
  read_fields obj = Ok (center, extent, color) ->
  getitem obj "id" = Ok id ->
  box_step obj st =
    match create_colored_box center extent color with
    | Ok box => Ok (append (GMesh box) st)
    | Raise e => Ok (print (ErrorCreatingBox id e) st)
    end.
Proof.
  intros Hf Hid. rewrite box_step_split, Hf. cbn. rewrite Hid.
  destruct (create_colored_box center extent color); reflexivity.
Qed.

Lemma box_loop_app (pre post : list (string * pyval)) (st : state) :
  box_loop (pre ++ post) st = (st' <- box_loop pre st ;; box_loop post st').
Proof.
  revert st. induction pre as [| [key obj] pre IH]; intros st; cbn.
  - reflexivity.
  - destruct (box_step obj st) as [st1 |]; cbn; [apply IH | reflexivity].
Qed.

(** When every record passes the reads before the [try], the loop runs to
    its end: boxes that were built are appended in order and every failed
    call is logged. *)
Lemma box_loop_total (items : list (string * pyval)) (st : state) :
  forallb (fun kv => has_fields (snd kv)) items = true ->
  box_loop items st =
    Ok {| geometries := geometries st ++ built_boxes items;
          stdout := stdout st ++ logged_errors items |}.
Proof.
  revert st. induction items as [| [key obj] rest IH]; intros st Hall.
  - cbn. rewrite !app_nil_r. now destruct st.
  - cbn in Hall. apply andb_true_iff in Hall as [Hobj Hrest].
    unfold has_fields in Hobj.
    destruct (read_fields obj) as [[[center extent] color] |] eqn:Hf;
      [| discriminate].
    destruct (read_fields_inv _ _ _ _ Hf) as (_ & _ & Hcol).
    destruct (pick_color_has_id _ _ Hcol) as (id & Hid).
    cbn [box_loop]. rewrite (box_step_caught _ _ _ _ _ _ Hf Hid).
    unfold built_boxes, logged_errors. cbn [flat_map snd].
    rewrite Hf, Hid.
    destruct (create_colored_box center extent color) as [box | e];
      cbn [bind]; rewrite (IH _ Hrest); cbn [append print geometries stdout];
      unfold built_boxes, logged_errors;
      rewrite <- ?app_assoc; reflexivity.
Qed.

Lemma list_index_palette (m : Z) :
  (0 <= m < 6)%Z ->
  list_index color_palette m = Ok (nth (Z.to_nat m) color_palette PNone).
Proof.
  intros Hm.
  assert (Hcases : (m = 0 \/ m = 1 \/ m = 2 \/ m = 3 \/ m = 4 \/ m = 5)%Z)
    by lia.
  destruct Hcases as [-> | [-> | [-> | [-> | [-> | ->]]]]]; reflexivity.
Qed.

(** C8: for every record with a non-negative integer id the colour the
    driver hands to the box builder is [palette[id % 6]], and the palette
    is the fixed list red, green, blue, yellow, magenta, cyan. *)
Theorem driver_color_is_palette_id_mod_6 :
  forall (obj center extent : pyval) (z : Z) (st : state),
    getitem obj "bbox_center" = Ok center ->
    getitem obj "bbox_extent" = Ok extent ->
    getitem obj "id" = Ok (PInt z) ->
    (0 <= z)%Z ->
    let color := nth (Z.to_nat (z mod 6)) color_palette PNone in
    pick_color obj = Ok color /\
    box_step obj st =
      match create_colored_box center extent color with
      | Ok box => Ok (append (GMesh box) st)
      | Raise e => Ok (print (ErrorCreatingBox (PInt z) e) st)
      end /\
    color_palette =
      [ PList [PInt 1; PInt 0; PInt 0]; PList [PInt 0; PInt 1; PInt 0];
        PList [PInt 0; PInt 0; PInt 1]; PList [PInt 1; PInt 1; PInt 0];
        PList [PInt 1; PInt 0; PInt 1]; PList [PInt 0; PInt 1; PInt 1] ].
Proof.
  intros obj center extent z st Hc He Hid Hz color.
  assert (Hpick : pick_color obj = Ok color).
  { unfold pick_color. rewrite Hid. cbn.
    apply list_index_palette, Z.mod_pos_bound. lia. }
  split; [exact Hpick |]. split; [| reflexivity].
  apply box_step_caught; [| exact Hid].
  unfold read_fields. rewrite Hc, He, Hpick. reflexivity.
Qed.

Lemma driver_color_is_palette_id_mod_6_witness :
  pick_color (PDict [ ("id", PInt 8);
                      ("bbox_center", PList [PInt 0; PInt 0; PInt 0]);
                      ("bbox_extent", PList [PInt 1; PInt 1; PInt 1]) ])
  = Ok (PList [PInt 0; PInt 0; PInt 1]).
Proof.
  refine (proj1 (driver_color_is_palette_id_mod_6
                  (PDict [ ("id", PInt 8);
                           ("bbox_center", PList [PInt 0; PInt 0; PInt 0]);
                           ("bbox_extent", PList [PInt 1; PInt 1; PInt 1]) ])
                  (PList [PInt 0; PInt 0; PInt 0])
                  (PList [PInt 1; PInt 1; PInt 1])
                  8%Z initial_state eq_refl eq_refl eq_refl _)).
  lia.
Defined.

(** C3, as the spec states it, fails: a first record without
    [bbox_center] ends the run with [KeyError] before the second,
    well-formed record is looked at. *)
Lemma missing_bbox_center_aborts_run :
  let graph :=
    PDict [ ("0", PDict [ ("id", PInt 0);
                          ("bbox_extent", PList [PInt 1; PInt 1; PInt 1]) ]);
            ("1", PDict [ ("id", PInt 1);
                          ("bbox_center", PList [PInt 0; PInt 0; PInt 0]);
                          ("bbox_extent", PList [PInt 1; PInt 1; PInt 1]) ]) ] in
  main graph [] = Raise (KeyError "bbox_center") /\
  ~ (exists st, main graph [] = Ok st).
Proof.
  cbn zeta.
  split; [reflexivity |]. intros [st Hst]. discriminate Hst.
Qed.

(** C3, amended: for a record whose [bbox_center], [bbox_extent] and [id]
    fields are present and whose id selects a palette colour, if the
    [create_colored_box] call raises, the driver logs the id and the
    error, adds nothing to the geometry list for that record and goes on
    with all the subsequent records; such a record never aborts the run. *)
Theorem box_failure_is_logged_and_skipped :
  forall (pre post : list (string * pyval)) (key : string)
         (obj center extent color id : pyval) (e : exn) (st : state),
    forallb (fun kv => has_fields (snd kv)) pre = true ->
    forallb (fun kv => has_fields (snd kv)) post = true ->
    getitem obj "bbox_center" = Ok center ->
    getitem obj "bbox_extent" = Ok extent ->
    getitem obj "id" = Ok id ->
    pick_color obj = Ok color ->
    create_colored_box center extent color = Raise e ->
    box_step obj st = Ok (print (ErrorCreatingBox id e) st) /\
    box_loop (pre ++ (key, obj) :: post) st =
      Ok {| geometries := geometries st ++ built_boxes pre ++ built_boxes post;
            stdout := stdout st ++ logged_errors pre
                        ++ [ErrorCreatingBox id e] ++ logged_errors post |}.
Proof.
  intros pre post key obj center extent color id e st
         Hpre Hpost Hc He Hid Hcol Hraise.
  assert (Hf : read_fields obj = Ok (center, extent, color)).
  { unfold read_fields. rewrite Hc, He, Hcol. reflexivity. }
  assert (Hstep : forall s, box_step obj s = Ok (print (ErrorCreatingBox id e) s)).
  { intros s. rewrite (box_step_caught _ _ _ _ _ _ Hf Hid), Hraise.
    reflexivity. }
  split; [apply Hstep |].
  rewrite box_loop_app, (box_loop_total _ _ Hpre). cbn [bind box_loop].
  rewrite Hstep. cbn [bind]. rewrite (box_loop_total _ _ Hpost).
  cbn [print geometries stdout]. rewrite <- !app_assoc. reflexivity.
Qed.

Lemma box_failure_is_logged_and_skipped_witness :
  let bad := PDict [ ("id", PInt 3);
                     ("bbox_center", PList [PInt 0; PInt 0; PInt 0]);
                     ("bbox_extent", PList [PFloat 1; PFloat 2]) ] in
  let good := PDict [ ("id", PInt 4);
                      ("bbox_center", PList [PInt 0; PInt 0; PInt 0]);
                      ("bbox_extent", PList [PInt 1; PInt 1; PInt 1]) ] in
  box_loop ([] ++ ("a", bad) :: [("b", good)]) initial_state =
    Ok {| geometries := [] ++ [] ++ built_boxes [("b", good)];
          stdout := [] ++ [] ++ [ErrorCreatingBox (PInt 3) IndexError]
                      ++ logged_errors [("b", good)] |}.
Proof.
  exact (proj2 (box_failure_is_logged_and_skipped
                  [] [("b", PDict [ ("id", PInt 4);
                      ("bbox_center", PList [PInt 0; PInt 0; PInt 0]);
                      ("bbox_extent", PList [PInt 1; PInt 1; PInt 1]) ])]
                  "a"
                  (PDict [ ("id", PInt 3);
                     ("bbox_center", PList [PInt 0; PInt 0; PInt 0]);
                     ("bbox_extent", PList [PFloat 1; PFloat 2]) ])
                  (PList [PInt 0; PInt 0; PInt 0])
                  (PList [PFloat 1; PFloat 2])
                  (PList [PInt 1; PInt 1; PInt 0])
                  (PInt 3) IndexError initial_state
                  eq_refl eq_refl eq_refl eq_refl eq_refl eq_refl eq_refl)).
Defined.

(** A record without one of the three keys raises [KeyError] for the first
    key that is missing, in the order the loop body reads them. *)
Lemma box_step_missing_key (d : list (string * pyval)) :
  lookup "bbox_center" d = None \/ lookup "bbox_extent" d = None \/
  lookup "id" d = None ->
  exists k,
    In k ["bbox_center"; "bbox_extent"; "id"] /\
    lookup k d = None /\
    forall st, box_step (PDict d) st = Raise (KeyError k).
Proof.
  intros Hmiss.
  destruct (lookup "bbox_center" d) as [c |] eqn:Hc.
  - destruct (lookup "bbox_extent" d) as [e |] eqn:He.
    + destruct (lookup "id" d) as [i |] eqn:Hi.
      * destruct Hmiss as [H | [H | H]]; discriminate H.
      * exists "id". split; [cbn; auto |]. split; [exact Hi |].
        intros st. unfold box_step, pick_color, getitem.
        rewrite Hc, He, Hi. reflexivity.
    + exists "bbox_extent". split; [cbn; auto |]. split; [exact He |].
      intros st. unfold box_step, getitem. rewrite Hc, He. reflexivity.
  - exists "bbox_center". split; [cbn; auto |]. split; [exact Hc |].
    intros st. unfold box_step, getitem. rewrite Hc. reflexivity.
Qed.

(** C10: the reads of [bbox_center], [bbox_extent] and [id] come before the
    [try], so a record without one of the three keys raises a [KeyError]
    that nothing catches and that ends the run at that record; an exception
    leaves the loop body exactly when it was raised by those reads (or the
    palette lookup), while one raised by [create_colored_box] is caught and
    logged with the id that the handler reads again from the record. *)
Theorem field_reads_precede_try :
  forall (pre post : list (string * pyval)) (key : string)
         (d : list (string * pyval)) (cams : list camera_record)
         (st0 : state),
    lookup "bbox_center" d = None \/ lookup "bbox_extent" d = None \/
    lookup "id" d = None ->
    box_loop pre initial_state = Ok st0 ->
    (exists k,
       In k ["bbox_center"; "bbox_extent"; "id"] /\
       lookup k d = None /\
       box_step (PDict d) st0 = Raise (KeyError k) /\
       main (PDict (pre ++ (key, PDict d) :: post)) cams = Raise (KeyError k)) /\
    (forall (obj : pyval) (st : state) (e : exn),
       box_step obj st = Raise e <-> read_fields obj = Raise e) /\
    (forall (obj center extent color : pyval) (st : state) (e : exn),
       read_fields obj = Ok (center, extent, color) ->
       create_colored_box center extent color = Raise e ->
       exists id,
         getitem obj "id" = Ok id /\
         box_step obj st = Ok (print (ErrorCreatingBox id e) st)).
Proof.
  intros pre post key d cams st0 Hmiss Hpre. split; [| split].
  - destruct (box_step_missing_key d Hmiss) as (k & Hin & Hk & Hstep).
    exists k. repeat split; try assumption; [apply Hstep |].
    unfold main. cbn [dict_items bind].
    rewrite box_loop_app, Hpre. cbn [bind box_loop].
    rewrite Hstep. reflexivity.
  - intros obj st e. apply box_step_raise_iff.
  - intros obj center extent color st e Hf Hraise.
    destruct (read_fields_inv _ _ _ _ Hf) as (_ & _ & Hcol).
    destruct (pick_color_has_id _ _ Hcol) as (id & Hid).
    exists id. split; [exact Hid |].
    rewrite (box_step_caught _ _ _ _ _ _ Hf Hid), Hraise. reflexivity.
Qed.

Lemma field_reads_precede_try_witness :
  exists k,
    main (PDict ([ ("a", PDict [ ("id", PInt 3);
                                 ("bbox_center", PList [PInt 0; PInt 0; PInt 0]);
                                 ("bbox_extent", PList []) ]) ]
                 ++ ("b", PDict [ ("bbox_center", PList [PInt 0; PInt 0; PInt 0]);
                                  ("bbox_extent", PList [PInt 1; PInt 1; PInt 1]) ])
                 :: [ ("c", PDict [ ("id", PInt 5);
                                    ("bbox_center", PList [PInt 0; PInt 0; PInt 0]);
                                    ("bbox_extent", PList [PInt 1; PInt 1; PInt 1]) ]) ]))
         [] = Raise (KeyError k).
Proof.
  destruct (field_reads_precede_try
              [ ("a", PDict [ ("id", PInt 3);
                              ("bbox_center", PList [PInt 0; PInt 0; PInt 0]);
                              ("bbox_extent", PList []) ]) ]
              [ ("c", PDict [ ("id", PInt 5);
                              ("bbox_center", PList [PInt 0; PInt 0; PInt 0]);
                              ("bbox_extent", PList [PInt 1; PInt 1; PInt 1]) ]) ]
              "b"
              [ ("bbox_center", PList [PInt 0; PInt 0; PInt 0]);
                ("bbox_extent", PList [PInt 1; PInt 1; PInt 1]) ]
              []
              (print (ErrorCreatingBox (PInt 3) IndexError) initial_state)
              (or_intror (or_intror eq_refl)) eq_refl)
    as ((k & _ & _ & _ & Hmain) & _).
  exists k. exact Hmain.
Defined.

(** * Further properties of the code *)

(** ** The frustum builder, lines 24-98 *)

(** X1: every segment joins two different points of the returned point
    list, so no index falls outside it, and every segment has a colour. *)
Theorem frustum_segments_index_points :
  forall (t : vec3) (M : mat3) (K : intrinsics),
  exists ls,
    create_camera_frustum t M K = Ok ls /\
    forallb (segment_in_range (Z.of_nat (List.length (points ls)))) (lines ls)
      = true /\
    forallb (fun seg => negb (fst seg =? snd seg)%Z) (lines ls) = true /\
    List.length (colors ls) = List.length (lines ls).
Proof.
  intros t M K. eexists. split.
  - apply create_camera_frustum_eq.
  - repeat split; reflexivity.
Qed.

(** X2: for non-zero focal lengths, moving the camera by [d] moves every
    point of the frustum by [d]. *)
Theorem frustum_translation_equivariant :
  forall (t d : vec3) (M : mat3) (K : intrinsics),
    fx K <> 0 -> fy K <> 0 ->
    frustum_points (vadd t d) M K =
      map (fun p => vadd p d) (frustum_points t M K).
Proof.
  intros [[tx ty] tz] [[dx dy] dz] M K _ _. unfold frustum_points.
  rewrite !create_camera_frustum_eq.
  destruct M as [[[[a00 a01] a02] [[a10 a11] a12]] [[a20 a21] a22]].
  cbn. list_eq; ring.
Qed.

Lemma frustum_translation_equivariant_witness :
  frustum_points (vadd (1, 2, 3) (0, 0, 10)) identity3 default_intrinsics =
    map (fun p => vadd p (0, 0, 10))
        (frustum_points (1, 2, 3) identity3 default_intrinsics).
Proof.
  apply (frustum_translation_equivariant (1, 2, 3) (0, 0, 10) identity3
           default_intrinsics);
    cbn; lra.
Defined.

(** X3: for non-zero focal lengths, whatever the matrix and the other
    intrinsics, the four corners form a parallelogram: opposite corners
    have the same midpoint. *)
Theorem frustum_corners_parallelogram :
  forall (t : vec3) (M : mat3) (K : intrinsics),
    fx K <> 0 -> fy K <> 0 ->
    exists p0 p1 p2 p3 p4,
      frustum_points t M K = [p0; p1; p2; p3; p4] /\
      vadd p1 p3 = vadd p2 p4.
Proof.
  intros [[tx ty] tz] M K _ _. unfold frustum_points.
  rewrite create_camera_frustum_eq.
  destruct M as [[[[a00 a01] a02] [[a10 a11] a12]] [[a20 a21] a22]].
  cbn. do 5 eexists. split; [reflexivity |].
  cbn. list_eq; ring.
Qed.

Lemma frustum_corners_parallelogram_witness :
  exists p0 p1 p2 p3 p4,
    frustum_points (1, 2, 3) identity3 default_intrinsics
      = [p0; p1; p2; p3; p4] /\
    vadd p1 p3 = vadd p2 p4.
Proof.
  apply (frustum_corners_parallelogram (1, 2, 3) identity3 default_intrinsics);
    cbn; lra.
Defined.

(** X4: when the principal point is the middle of the image (and the focal
    lengths are not zero), the centre of the image-plane rectangle lies on
    the optical axis, [depth] away from the camera. *)
Theorem frustum_center_on_optical_axis :
  forall (t : vec3) (M : mat3) (K : intrinsics),
    fx K <> 0 -> fy K <> 0 ->
    cx K = width K / 2 ->
    cy K = height K / 2 ->
    exists p0 p1 p2 p3 p4,
      frustum_points t M K = [p0; p1; p2; p3; p4] /\
      vscale (/ 4) (vadd (vadd p1 p2) (vadd p3 p4)) =
        vadd t (vscale (depth K) (optical_axis M)).
Proof.
  intros [[tx ty] tz] M K Hfx Hfy Hcx Hcy. unfold frustum_points.
  rewrite create_camera_frustum_eq.
  destruct M as [[[[a00 a01] a02] [[a10 a11] a12]] [[a20 a21] a22]].
  assert (Hw : width K = 2 * cx K) by lra.
  assert (Hh : height K = 2 * cy K) by lra.
  cbn. do 5 eexists. split; [reflexivity |].
  cbn. rewrite Hw, Hh. list_eq; field; repeat split; assumption.
Qed.

Lemma frustum_center_on_optical_axis_witness :
  exists p0 p1 p2 p3 p4,
    frustum_points (1, 2, 3) identity3 default_intrinsics
      = [p0; p1; p2; p3; p4] /\
    vscale (/ 4) (vadd (vadd p1 p2) (vadd p3 p4)) =
      vadd (1, 2, 3) (vscale (depth default_intrinsics) (optical_axis identity3)).
Proof.
  apply (frustum_center_on_optical_axis (1, 2, 3) identity3 default_intrinsics);
    cbn; lra.
Defined.

(** X5: with [depth = 0] (and non-zero focal lengths) the frustum
    collapses: all five points are the camera centre, and the call still
    returns. *)
Theorem frustum_depth_zero_collapses :
  forall (t : vec3) (M : mat3) (K : intrinsics),
    fx K <> 0 -> fy K <> 0 ->
    depth K = 0 ->
    frustum_points t M K = repeat t 5.
Proof.
  intros [[tx ty] tz] M K Hfx Hfy Hd. unfold frustum_points.
  rewrite create_camera_frustum_eq.
  destruct M as [[[[a00 a01] a02] [[a10 a11] a12]] [[a20 a21] a22]].
  cbn. rewrite Hd. list_eq; field; repeat split; assumption.
Qed.

Lemma frustum_depth_zero_collapses_witness :
  frustum_points (1, 2, 3) identity3
    {| fx := 500; fy := 500; cx := 320; cy := 240;
       width := 640; height := 480; depth := 0 |}
  = repeat (1, 2, 3) 5.
Proof.
  apply (frustum_depth_zero_collapses (1, 2, 3) identity3
           {| fx := 500; fy := 500; cx := 320; cy := 240;
              width := 640; height := 480; depth := 0 |});
    cbn; lra.
Defined.

(** ** The driver's rotation matrix, lines 162-169 *)

(** X6: for all angles the matrix of the driver is a proper rotation: its
    rows are orthonormal and its determinant is 1. *)
Theorem driver_rotation_orthonormal :
  forall yaw_deg pitch_deg roll_deg : R,
    let A := driver_rotation yaw_deg pitch_deg roll_deg in
    mat3_mul A (mat3_transpose A) = identity3 /\
    mat3_mul (mat3_transpose A) A = identity3 /\
    mat3_det A = 1.
Proof.
  intros y p r A. subst A.
  unfold driver_rotation, rotation_matrix.
  pose proof (sin2_cos2 (deg2rad y)) as Hy.
  pose proof (sin2_cos2 (deg2rad p)) as Hp.
  pose proof (sin2_cos2 (deg2rad r)) as Hr.
  unfold Rsqr in *.
  set (cy := cos (deg2rad y)) in *. set (sy := sin (deg2rad y)) in *.
  set (cp := cos (deg2rad p)) in *. set (sp := sin (deg2rad p)) in *.
  set (cr := cos (deg2rad r)) in *. set (sr := sin (deg2rad r)) in *.
  unfold mat3_mul, mat3_transpose, mat3_det, identity3, vx, vy, vz.
  cbn [fst snd].
  repeat split; list_eq; nsatz.
Qed.

(** X7: for non-zero focal lengths the frustum the driver builds is a
    rigid copy of the camera-frame pyramid: each corner is as far from the
    camera centre as the unprojected corner is from the origin of the
    camera frame. *)
Theorem driver_frustum_keeps_distances :
  forall (t : vec3) (yaw_deg pitch_deg roll_deg : R) (K : intrinsics),
    fx K <> 0 -> fy K <> 0 ->
    map (fun q => dist2 q t)
        (tl (frustum_points t (driver_rotation yaw_deg pitch_deg roll_deg) K))
    = map (fun uv => norm2 (pinhole_unproject K uv)) (corners_2d K).
Proof.
  intros [[tx ty] tz] y p r K _ _. unfold frustum_points.
  rewrite create_camera_frustum_eq.
  unfold driver_rotation, rotation_matrix.
  pose proof (sin2_cos2 (deg2rad y)) as Hy.
  pose proof (sin2_cos2 (deg2rad p)) as Hp.
  pose proof (sin2_cos2 (deg2rad r)) as Hr.
  unfold Rsqr in *.
  set (cy' := cos (deg2rad y)) in *. set (sy := sin (deg2rad y)) in *.
  set (cp := cos (deg2rad p)) in *. set (sp := sin (deg2rad p)) in *.
  set (cr := cos (deg2rad r)) in *. set (sr := sin (deg2rad r)) in *.
  cbn. unfold dist2, norm2, vx, vy, vz. cbn [fst snd vsub].
  set (d := depth K). set (x0 := (0 - cx K) * d / fx K).
  set (x1 := (width K - cx K) * d / fx K).
  set (y0 := (0 - cy K) * d / fy K).
  set (y1 := (height K - cy K) * d / fy K).
  list_eq; nsatz.
Qed.

Lemma driver_frustum_keeps_distances_witness :
  map (fun q => dist2 q (1, 2, 3))
      (tl (frustum_points (1, 2, 3) (driver_rotation 30 45 60)
             default_intrinsics))
  = map (fun uv => norm2 (pinhole_unproject default_intrinsics uv))
        (corners_2d default_intrinsics).
Proof.
  apply (driver_frustum_keeps_distances (1, 2, 3) 30 45 60 default_intrinsics);
    cbn; lra.
Defined.

(** ** The box builders, lines 5-22 and 100-114 *)

Lemma as_real_number (v : pyval) :
  is_number v = true -> exists x, as_real v = Ok x.
Proof. destruct v; try discriminate; intros _; eexists; reflexivity. Qed.

Lemma as_real_raise (v : pyval) (e : exn) :
  as_real v = Raise e -> e = TypeError.
Proof. destruct v; cbn; intros H; try discriminate H; now injection H. Qed.

(** Line 102 on a list of numbers: one clamped value per element. *)
Lemma clamp_extent_numbers (es : list pyval) :
  forallb is_number es = true ->
  exists xs,
    clamp_extent (PList es) = Ok xs /\ List.length xs = List.length es.
Proof.
  unfold clamp_extent. cbn [iterate bind].
  induction es as [| v es IH]; intros Hall.
  - exists []. split; reflexivity.
  - cbn in Hall. apply andb_true_iff in Hall as [Hv Hes].
    destruct (as_real_number v Hv) as [x Hx].
    destruct (IH Hes) as (xs & Hxs & Hlen).
    exists (py_max x 0.01 :: xs). cbn. rewrite Hx. cbn. rewrite Hxs. cbn.
    split; [reflexivity | now rewrite Hlen].
Qed.

(** X8: an extent list of fewer than three numbers makes the live builder
    raise [IndexError], whatever the centre and the colour are. *)
Theorem short_extent_raises_index_error :
  forall (center color : pyval) (es : list pyval),
    forallb is_number es = true ->
    (List.length es < 3)%nat ->
    create_colored_box center (PList es) color = Raise IndexError.
Proof.
  intros center color es Hnum Hlen.
  destruct (clamp_extent_numbers es Hnum) as (xs & Hxs & Hl).
  unfold create_colored_box. rewrite Hxs. cbn [bind].
  destruct xs as [| x0 [| x1 [| x2 xs]]]; try reflexivity.
  cbn in Hl. lia.
Qed.

Lemma short_extent_raises_index_error_witness :
  create_colored_box (PList [PInt 0; PInt 0; PInt 0])
                     (PList [PFloat 0.5; PInt 2])
                     (PList [PInt 1; PInt 0; PInt 0]) = Raise IndexError.
Proof.
  apply (short_extent_raises_index_error
           (PList [PInt 0; PInt 0; PInt 0]) (PList [PInt 1; PInt 0; PInt 0])
           [PFloat 0.5; PInt 2]).
  - reflexivity.
  - cbn. lia.
Defined.

Lemma clamp_extent_not_number (es : list pyval) (e : pyval) :
  In e es -> (forall x, as_real e <> Ok x) ->
  clamp_extent (PList es) = Raise TypeError.
Proof.
  unfold clamp_extent. cbn [iterate bind].
  induction es as [| v es IH]; intros Hin Hbad; [contradiction |].
  cbn. destruct (as_real v) as [x |] eqn:Hv.
  - cbn. destruct Hin as [-> | Hin]; [now elim (Hbad x) |].
    rewrite (IH Hin Hbad). reflexivity.
  - cbn. f_equal. now apply as_real_raise with (v := v).
Qed.

(** X9: an extent list with an entry that is not a number, at any
    position, makes the live builder raise [TypeError]: line 102 clamps
    every entry, not only the three that are used. *)
Theorem non_numeric_extent_raises_type_error :
  forall (center color : pyval) (es : list pyval) (e : pyval),
    In e es ->
    (forall x, as_real e <> Ok x) ->
    create_colored_box center (PList es) color = Raise TypeError.
Proof.
  intros center color es e Hin Hbad. unfold create_colored_box.
  rewrite (clamp_extent_not_number es e Hin Hbad). reflexivity.
Qed.

Lemma non_numeric_extent_raises_type_error_witness :
  create_colored_box (PList [PInt 0; PInt 0; PInt 0])
                     (PList [PInt 1; PInt 1; PInt 1; PStr "m"])
                     (PList [PInt 1; PInt 0; PInt 0]) = Raise TypeError.
Proof.
  apply (non_numeric_extent_raises_type_error
           (PList [PInt 0; PInt 0; PInt 0]) (PList [PInt 1; PInt 0; PInt 0])
           [PInt 1; PInt 1; PInt 1; PStr "m"] (PStr "m")).
  - cbn. auto.
  - intros x H. discriminate H.
Defined.

Lemma list_index_in_range {A : Type} (l : list A) (i : Z) (a : A) :
  (0 <= i)%Z -> nth_error l (Z.to_nat i) = Some a -> list_index l i = Ok a.
Proof.
  intros Hi Hnth. unfold list_index.
  assert (Hlt : (Z.to_nat i < List.length l)%nat)
    by (apply nth_error_Some; rewrite Hnth; discriminate).
  destruct (Z.ltb_spec i 0); [lia |].
  destruct (Z.leb_spec 0 i); [| lia].
  destruct (Z.ltb_spec i (Z.of_nat (List.length l))); [| lia].
  cbn [andb]. now rewrite Hnth.
Qed.

Lemma list_index_head3 {A : Type} (a b c : A) (rest : list A) :
  list_index (a :: b :: c :: rest) 0 = Ok a /\
  list_index (a :: b :: c :: rest) 1 = Ok b /\
  list_index (a :: b :: c :: rest) 2 = Ok c.
Proof.
  repeat split; apply list_index_in_range; (lia || reflexivity).
Qed.

(** X10: numbers after the third entry of the extent list are ignored: the
    result is that of the first three entries alone. *)
Theorem extra_extent_entries_ignored :
  forall (center color a b c : pyval) (rest : list pyval),
    forallb is_number rest = true ->
    create_colored_box center (PList (a :: b :: c :: rest)) color =
    create_colored_box center (PList [a; b; c]) color.
Proof.
  intros center color a b c rest Hrest.
  destruct (clamp_extent_numbers rest Hrest) as (xs & Hxs & _).
  unfold clamp_extent in Hxs. cbn [iterate bind] in Hxs.
  unfold create_colored_box, clamp_extent. cbn [iterate bind mapM].
  destruct (as_real a) as [x |]; [| reflexivity].
  destruct (as_real b) as [y |]; [| reflexivity].
  destruct (as_real c) as [z |]; [| reflexivity].
  cbn [bind]. rewrite Hxs. cbn [bind].
  destruct (list_index_head3 (py_max x 0.01) (py_max y 0.01) (py_max z 0.01) xs)
    as (-> & -> & ->).
  destruct (list_index_head3 (py_max x 0.01) (py_max y 0.01) (py_max z 0.01) [])
    as (-> & -> & ->).
  reflexivity.
Qed.

Lemma extra_extent_entries_ignored_witness :
  create_colored_box (PList [PInt 0; PInt 0; PInt 0])
                     (PList [PInt 1; PInt 2; PInt 3; PFloat 9; PInt 7])
                     (PList [PInt 1; PInt 0; PInt 0]) =
  create_colored_box (PList [PInt 0; PInt 0; PInt 0])
                     (PList [PInt 1; PInt 2; PInt 3])
                     (PList [PInt 1; PInt 0; PInt 0]).
Proof.
  apply (extra_extent_entries_ignored
           (PList [PInt 0; PInt 0; PInt 0]) (PList [PInt 1; PInt 0; PInt 0])
           (PInt 1) (PInt 2) (PInt 3) [PFloat 9; PInt 7]).
  reflexivity.
Defined.

(** X11: the first definition (lines 5-22) centres its box: for positive
    half-extents the centre of the box is [center] and its half-extent is
    [extent]. *)
Theorem first_definition_centers_box :
  forall center extent color : vec3,
    0 < vx extent -> 0 < vy extent -> 0 < vz extent ->
    exists box,
      create_colored_box_shadowed center extent color = Ok box /\
      get_center box = center /\
      aabb_center box = center /\
      half_extent box = extent.
Proof.
  intros center extent color Hx Hy Hz. unfold create_colored_box_shadowed.
  rewrite create_box_pos by lra. cbn [bind].
  exists (placed (2 * vx extent) (2 * vy extent) (2 * vz extent)
                 (vsub center (vx extent, vy extent, vz extent)) color).
  split; [reflexivity |].
  rewrite placed_get_center, placed_aabb_center, placed_half_extent by lra.
  destruct center as [[x y] z], extent as [[ex ey] ez].
  unfold vx, vy, vz in *. cbn in *. repeat split; list_eq; lra.
Qed.

Lemma first_definition_centers_box_witness :
  exists box,
    create_colored_box_shadowed (1, 2, 3) (0.5, 1, 2) (1, 0, 0) = Ok box /\
    get_center box = (1, 2, 3) /\
    aabb_center box = (1, 2, 3) /\
    half_extent box = (0.5, 1, 2).
Proof.
  apply (first_definition_centers_box (1, 2, 3) (0.5, 1, 2) (1, 0, 0));
    cbn; lra.
Defined.

(** X12: with half-extents of at least 0.01 the two definitions build the
    same box up to a shift: the live one is the first one moved by
    [extent], vertex by vertex, with the same colours. *)
Theorem live_box_is_first_box_shifted :
  forall (center extent color : pyval) (c e col : vec3),
    to_vector3d center = Ok c ->
    to_vector3d extent = Ok e ->
    to_vector3d color = Ok col ->
    0.01 <= vx e -> 0.01 <= vy e -> 0.01 <= vz e ->
    exists live first,
      create_colored_box center extent color = Ok live /\
      create_colored_box_shadowed c e col = Ok first /\
      vertices live = map (fun p => vadd p e) (vertices first) /\
      vertex_colors live = vertex_colors first.
Proof.
  intros center extent color c e col Hc He Hcol Hx Hy Hz.
  rewrite (create_colored_box_eq _ _ _ _ _ _ Hc He Hcol).
  unfold create_colored_box_shadowed. rewrite create_box_pos by lra.
  cbn [bind]. do 2 eexists. split; [reflexivity |]. split; [reflexivity |].
  assert (Hmx : py_max (vx e) 0.01 = vx e)
    by (unfold py_max; destruct (Rlt_dec (vx e) 0.01); lra).
  assert (Hmy : py_max (vy e) 0.01 = vy e)
    by (unfold py_max; destruct (Rlt_dec (vy e) 0.01); lra).
  assert (Hmz : py_max (vz e) 0.01 = vz e)
    by (unfold py_max; destruct (Rlt_dec (vz e) 0.01); lra).
  rewrite Hmx, Hmy, Hmz.
  destruct c as [[x y] z], e as [[ex ey] ez]. unfold vx, vy, vz. cbn.
  split; [list_eq; ring | reflexivity].
Qed.

Lemma live_box_is_first_box_shifted_witness :
  exists live first,
    create_colored_box (PList [PInt 1; PInt 2; PInt 3])
                       (PList [PInt 1; PInt 1; PFloat 0.5])
                       (PList [PInt 1; PInt 0; PInt 0]) = Ok live /\
    create_colored_box_shadowed (1, 2, 3) (1, 1, 0.5) (1, 0, 0) = Ok first /\
    vertices live = map (fun p => vadd p (1, 1, 0.5)) (vertices first) /\
    vertex_colors live = vertex_colors first.
Proof.
  apply (live_box_is_first_box_shifted
           (PList [PInt 1; PInt 2; PInt 3])
           (PList [PInt 1; PInt 1; PFloat 0.5])
           (PList [PInt 1; PInt 0; PInt 0])
           (1, 2, 3) (1, 1, 0.5) (1, 0, 0) eq_refl eq_refl eq_refl);
    cbn; lra.
Defined.

(** ** The object loop and the run, lines 116-171 *)

(** X13: any integer id selects a colour, negative ids included: Python's
    remainder is never negative, so the index is [id mod 6] in [0, 6). *)
Theorem every_integer_id_has_a_color :
  forall (obj : pyval) (z : Z),
    getitem obj "id" = Ok (PInt z) ->
    pick_color obj = Ok (nth (Z.to_nat (z mod 6)) color_palette PNone) /\
    In (nth (Z.to_nat (z mod 6)) color_palette PNone) color_palette.
Proof.
  intros obj z Hid.
  assert (Hm : (0 <= z mod 6 < 6)%Z) by (apply Z.mod_pos_bound; lia).
  split.
  - unfold pick_color. rewrite Hid. cbn.
    now apply list_index_palette.
  - apply nth_In. cbn. lia.
Qed.

Lemma every_integer_id_has_a_color_witness :
  pick_color (PDict [("id", PInt (-1))]) = Ok (PList [PInt 0; PInt 1; PInt 1]).
Proof.
  exact (proj1 (every_integer_id_has_a_color
                  (PDict [("id", PInt (-1))]) (-1)%Z eq_refl)).
Defined.

(** X14: an id that is a float (3.0, say), null, a list or a dict raises
    [TypeError] at line 145, before the [try]: the loop body raises and
    nothing is logged. *)
Theorem non_integer_id_raises_type_error :
  forall (obj center extent id : pyval) (st : state),
    getitem obj "bbox_center" = Ok center ->
    getitem obj "bbox_extent" = Ok extent ->
    getitem obj "id" = Ok id ->
    unusable_id id = true ->
    box_step obj st = Raise TypeError.
Proof.
  intros obj center extent id st Hc He Hid Hbad.
  unfold box_step, pick_color. rewrite Hc, He, Hid. cbn [bind].
  destruct id; try discriminate Hbad; reflexivity.
Qed.

Lemma non_integer_id_raises_type_error_witness :
  box_step (PDict [ ("id", PFloat 3);
                    ("bbox_center", PList [PInt 0; PInt 0; PInt 0]);
                    ("bbox_extent", PList [PInt 1; PInt 1; PInt 1]) ])
           initial_state = Raise TypeError.
Proof.
  apply (non_integer_id_raises_type_error
           (PDict [ ("id", PFloat 3);
                    ("bbox_center", PList [PInt 0; PInt 0; PInt 0]);
                    ("bbox_extent", PList [PInt 1; PInt 1; PInt 1]) ])
           (PList [PInt 0; PInt 0; PInt 0]) (PList [PInt 1; PInt 1; PInt 1])
           (PFloat 3) initial_state);
    reflexivity.
Defined.

(** One record that passes the reads before the [try] adds exactly one
    entry: a box or a log line. *)
Lemma box_step_adds_one (obj : pyval) (st : state) :
  has_fields obj = true ->
  exists st',
    box_step obj st = Ok st' /\
    (List.length (geometries st') + List.length (stdout st') =
     S (List.length (geometries st) + List.length (stdout st)))%nat.
Proof.
  unfold has_fields. intros Hobj.
  destruct (read_fields obj) as [[[center extent] color] |] eqn:Hf;
    [| discriminate].
  destruct (read_fields_inv _ _ _ _ Hf) as (_ & _ & Hcol).
  destruct (pick_color_has_id _ _ Hcol) as (id & Hid).
  rewrite (box_step_caught _ _ _ _ _ _ Hf Hid).
  destruct (create_colored_box center extent color); eexists;
    (split; [reflexivity |]); cbn; rewrite length_app; cbn; lia.
Qed.

(** X15: when every record passes the reads before the [try], the loop
    returns and each record has left exactly one trace: the boxes appended
    and the lines printed add up to the number of records. *)
Theorem every_record_is_built_or_logged :
  forall (items : list (string * pyval)) (st : state),
    forallb (fun kv => has_fields (snd kv)) items = true ->
    exists st',
      box_loop items st = Ok st' /\
      (List.length (geometries st') + List.length (stdout st') =
       List.length (geometries st) + List.length (stdout st)
       + List.length items)%nat.
Proof.
  induction items as [| [key obj] rest IH]; intros st Hall.
  - exists st. split; [reflexivity | cbn; lia].
  - cbn in Hall. apply andb_true_iff in Hall as [Hobj Hrest].
    destruct (box_step_adds_one obj st Hobj) as (st1 & Hstep & Hlen1).
    destruct (IH st1 Hrest) as (st' & Hloop & Hlen).
    exists st'. cbn [box_loop]. rewrite Hstep. cbn [bind].
    split; [exact Hloop |]. cbn [List.length]. lia.
Qed.

Lemma every_record_is_built_or_logged_witness :
  exists st',
    box_loop [ ("a", PDict [ ("id", PInt 3);
                             ("bbox_center", PList [PInt 0; PInt 0; PInt 0]);
                             ("bbox_extent", PList [PInt 1]) ]);
               ("b", PDict [ ("id", PInt 4);
                             ("bbox_center", PList [PInt 0; PInt 0; PInt 0]);
                             ("bbox_extent", PList [PInt 1; PInt 1; PInt 1]) ]) ]
             initial_state = Ok st' /\
    (List.length (geometries st') + List.length (stdout st') = 0 + 0 + 2)%nat.
Proof.
  apply (every_record_is_built_or_logged
           [ ("a", PDict [ ("id", PInt 3);
                           ("bbox_center", PList [PInt 0; PInt 0; PInt 0]);
                           ("bbox_extent", PList [PInt 1]) ]);
             ("b", PDict [ ("id", PInt 4);
                           ("bbox_center", PList [PInt 0; PInt 0; PInt 0]);
                           ("bbox_extent", PList [PInt 1; PInt 1; PInt 1]) ]) ]
           initial_state).
  reflexivity.
Defined.

(** X16: the object loop raises [e] exactly when some record raises [e] in
    its reads before the [try] and every record ahead of it passed them;
    the records after it play no part. *)
Theorem box_loop_raises_at_first_bad_record :
  forall (items : list (string * pyval)) (st : state) (e : exn),
    box_loop items st = Raise e <->
    exists pre key obj post,
      items = (pre ++ (key, obj) :: post)%list /\
      forallb (fun kv => has_fields (snd kv)) pre = true /\
      read_fields obj = Raise e.
Proof.
  induction items as [| [key obj] rest IH]; intros st e.
  - split; [discriminate |].
    intros (pre & k & o & post & Heq & _). now destruct pre.
  - cbn [box_loop]. split.
    + destruct (box_step obj st) as [st1 |] eqn:Hstep; cbn [bind].
      * intros Hrest. apply IH in Hrest as (pre & k & o & post & -> & Hpre & Hbad).
        exists ((key, obj) :: pre), k, o, post. split; [reflexivity |].
        split; [| exact Hbad]. cbn. rewrite Hpre, andb_true_r.
        unfold has_fields.
        destruct (read_fields obj) as [f | e'] eqn:Hf; [reflexivity |].
        apply (box_step_raise_iff obj st) in Hf. congruence.
      * intros H. injection H as ->.
        exists [], key, obj, rest. split; [reflexivity |].
        split; [reflexivity |]. now apply (box_step_raise_iff obj st).
    + intros (pre & k & o & post & Heq & Hpre & Hbad).
      destruct pre as [| [k0 o0] pre].
      * cbn in Heq. injection Heq as -> -> ->.
        apply (box_step_raise_iff o st) in Hbad. now rewrite Hbad.
      * cbn in Heq. injection Heq as -> -> ->.
        cbn in Hpre. apply andb_true_iff in Hpre as [Ho Hpre].
        destruct (box_step_adds_one o0 st Ho) as (st1 & Hstep & _).
        rewrite Hstep. cbn [bind]. apply IH.
        exists pre, k, o, post. auto.
Qed.

Lemma camera_frustum_returns (cam : camera_record) :
  exists ls, camera_frustum cam = Ok ls.
Proof.
  unfold camera_frustum. rewrite create_camera_frustum_eq.
  eexists. reflexivity.
Qed.

Lemma camera_step_frustum (cam : camera_record) (st : state) (ls : LineSet) :
  camera_frustum cam = Ok ls ->
  camera_step cam st = Ok (append (GLines ls) st).
Proof.
  unfold camera_step, camera_frustum. intros ->. reflexivity.
Qed.

(** The camera loop on typed records never raises: it appends one frustum
    per record and prints nothing. *)
Lemma camera_loop_total (cams : list camera_record) (st : state) :
  camera_loop cams st =
    Ok {| geometries := geometries st ++ built_frustums cams;
          stdout := stdout st |} /\
  List.length (built_frustums cams) = List.length cams.
Proof.
  revert st. induction cams as [| cam rest IH]; intros st.
  - cbn. rewrite app_nil_r. now destruct st.
  - destruct (camera_frustum_returns cam) as [ls Hls].
    cbn [camera_loop]. rewrite (camera_step_frustum _ _ _ Hls). cbn [bind].
    destruct (IH (append (GLines ls) st)) as [Hloop Hlen].
    rewrite Hloop. unfold built_frustums in *. cbn [flat_map].
    rewrite Hls. cbn [append geometries stdout].
    rewrite <- app_assoc. split; [reflexivity |].
    cbn [List.length app]. now rewrite Hlen.
Qed.

(** The run on typed camera records, when every object record passes the
    reads before the [try]. *)
Lemma main_boxes_then_frustums (items : list (string * pyval))
    (cams : list camera_record) :
  forallb (fun kv => has_fields (snd kv)) items = true ->
  main (PDict items) cams =
    Ok {| geometries := built_boxes items ++ built_frustums cams;
          stdout := logged_errors items |}.
Proof.
  intros Hall. unfold main. cbn [dict_items bind].
  rewrite (box_loop_total _ _ Hall). cbn [bind].
  destruct (camera_loop_total cams
              {| geometries := geometries initial_state ++ built_boxes items;
                 stdout := stdout initial_state ++ logged_errors items |})
    as [Hloop _].
  rewrite Hloop. reflexivity.
Qed.

(** X17: a value of the mapping that is not a dict (a list, a string, a
    number, null) ends the run with [TypeError] at line 143, once the
    records ahead of it went through. *)
Theorem non_dict_record_aborts_run :
  forall (pre post : list (string * pyval)) (key : string) (v : pyval)
         (cams : list camera_record) (st0 : state),
    is_dict v = false ->
    box_loop pre initial_state = Ok st0 ->
    main (PDict (pre ++ (key, v) :: post)) cams = Raise TypeError.
Proof.
  intros pre post key v cams st0 Hv Hpre. unfold main.
  cbn [dict_items bind]. rewrite box_loop_app, Hpre. cbn [bind box_loop].
  assert (Hstep : box_step v st0 = Raise TypeError)
    by (destruct v; try discriminate Hv; reflexivity).
  rewrite Hstep. reflexivity.
Qed.

Lemma non_dict_record_aborts_run_witness :
  main (PDict ([] ++ ("a", PList [PInt 1; PInt 2]) :: [])) [] = Raise TypeError.
Proof.
  apply (non_dict_record_aborts_run [] [] "a" (PList [PInt 1; PInt 2]) []
           initial_state);
    reflexivity.
Defined.

(** ** The camera loop on the raw JSON document, lines 154-171 *)

(** X18: a camera document without the [cameras] key is read as an empty
    list: the run returns what the object loop built and adds no frustum. *)
Theorem no_cameras_key_means_no_frustum :
  forall (items d : list (string * pyval)) (st : state),
    box_loop items initial_state = Ok st ->
    lookup "cameras" d = None ->
    main_json (PDict items) (PDict d) = Ok st.
Proof.
  intros items d st Hloop Hnone. unfold main_json.
  cbn [dict_items bind]. rewrite Hloop. cbn [bind dict_get].
  rewrite Hnone. reflexivity.
Qed.

Lemma no_cameras_key_means_no_frustum_witness :
  main_json (PDict []) (PDict [("poses", PList [])]) = Ok initial_state.
Proof.
  apply (no_cameras_key_means_no_frustum [] [("poses", PList [])]
           initial_state);
    reflexivity.
Defined.





(** On a camera document whose records can all be read, the run on the raw
    JSON is the run on the typed records read from it. *)
Lemma main_json_agrees_with_main (concept_graph : pyval)
    (d : list (string * pyval)) (cams : list pyval)
    (records : list camera_record) :
  lookup "cameras" d = Some (PList cams) ->
  mapM read_camera cams = Ok records ->
  main_json concept_graph (PDict d) = main concept_graph records.
Proof.
  intros Hcams Hread. unfold main_json, main.
  destruct (dict_items concept_graph) as [items |]; [| reflexivity].
  cbn [bind].
  destruct (box_loop items initial_state) as [st |]; [| reflexivity].
  cbn [bind dict_get]. rewrite Hcams. cbn [iterate bind]. clear Hcams.
  revert records Hread st.
  induction cams as [| cam rest IH]; intros records Hread st.
  - cbn in Hread. injection Hread as <-. reflexivity.
  - cbn in Hread. destruct (read_camera cam) as [record |] eqn:Hcam;
      [| discriminate]. cbn in Hread.
    destruct (mapM read_camera rest) as [rs |] eqn:Hrest; [| discriminate].
    cbn in Hread. injection Hread as <-.
    cbn [json_camera_loop camera_loop]. rewrite Hcam. cbn [bind].
    destruct (camera_step record st) as [st1 |]; [| reflexivity].
    cbn [bind]. now apply IH.
Qed.

Lemma mapM_length {A B : Type} (f : A -> result B) (l : list A) (bs : list B) :
  mapM f l = Ok bs -> List.length bs = List.length l.
Proof.
  revert bs. induction l as [| a l IH]; intros bs H; cbn in H.
  - now injection H as <-.
  - destruct (f a) as [b |]; [| discriminate]. cbn in H.
    destruct (mapM f l) as [bs' |]; [| discriminate]. cbn in H.
    injection H as <-. cbn. f_equal. now apply IH.
Qed.

(** X20: when every object record passes the reads before the [try] and
    every camera record can be read, the run returns; the list handed to
    the viewer holds the boxes in record order followed by one frustum per
    camera in camera order, and the only output is the log of the failed
    boxes. *)
Theorem run_orders_boxes_then_frustums :
  forall (items d : list (string * pyval)) (cams : list pyval)
         (records : list camera_record),
    forallb (fun kv => has_fields (snd kv)) items = true ->
    lookup "cameras" d = Some (PList cams) ->
    mapM read_camera cams = Ok records ->
    main_json (PDict items) (PDict d) =
      Ok {| geometries := built_boxes items ++ built_frustums records;
            stdout := logged_errors items |} /\
    List.length (built_frustums records) = List.length cams.
Proof.
  intros items d cams records Hall Hcams Hread.
  rewrite (main_json_agrees_with_main _ _ _ _ Hcams Hread).
  split; [now apply main_boxes_then_frustums |].
  destruct (camera_loop_total records initial_state) as [_ Hlen].
  rewrite Hlen. now apply mapM_length with (f := read_camera).
Qed.

Lemma run_orders_boxes_then_frustums_witness :
  let items :=
    [ ("a", PDict [ ("id", PInt 3);
                    ("bbox_center", PList [PInt 0; PInt 0; PInt 0]);
                    ("bbox_extent", PList [PInt 1; PInt 1; PInt 1]) ]) ] in
  let cam :=
    PDict [("camera_position",
            PDict [("x", PInt 1); ("y", PInt 2); ("z", PInt 3)]);
           ("camera_orientation",
            PDict [("yaw", PInt 90); ("pitch", PFloat 0); ("roll", PInt 0)])] in
  let records :=
    [ {| cam_x := 1; cam_y := 2; cam_z := 3;
         cam_yaw := 90; cam_pitch := 0; cam_roll := 0 |} ] in
  main_json (PDict items) (PDict [("cameras", PList [cam])]) =
    Ok {| geometries := built_boxes items ++ built_frustums records;
          stdout := logged_errors items |}.
Proof.
  exact (proj1 (run_orders_boxes_then_frustums
    [ ("a", PDict [ ("id", PInt 3);
                    ("bbox_center", PList [PInt 0; PInt 0; PInt 0]);
                    ("bbox_extent", PList [PInt 1; PInt 1; PInt 1]) ]) ]
    [("cameras",
      PList [PDict [("camera_position",
                     PDict [("x", PInt 1); ("y", PInt 2); ("z", PInt 3)]);
                    ("camera_orientation",
                     PDict [("yaw", PInt 90); ("pitch", PFloat 0);
                            ("roll", PInt 0)])]])]
    [PDict [("camera_position",
             PDict [("x", PInt 1); ("y", PInt 2); ("z", PInt 3)]);
            ("camera_orientation",
             PDict [("yaw", PInt 90); ("pitch", PFloat 0);
                    ("roll", PInt 0)])]]
    [ {| cam_x := 1; cam_y := 2; cam_z := 3;
         cam_yaw := 90; cam_pitch := 0; cam_roll := 0 |} ]
    eq_refl eq_refl eq_refl)).
Defined.
